(** * Pesticide MRL compliance checker

    A shallow embedding of [pesticide_checker.py] (class [PesticideChecker])
    and the properties of its decision logic.

    - Python [float] is the kernel's binary64 [float].
    - Python [str] is [string] (the UTF-8 bytes of the text).
    - A row of the [pesticide_mrl] table is the record [MrlRow.t]; a column that
      holds SQL NULL / Python [None] is [None].
    - The remote table is a [list MrlRow.t] in the store's native order; every
      [.execute()] is recorded in a log of the queries issued.
    - [datetime.now()] is an explicit clock reading; [datetime.fromisoformat]
      and the printing of floats in f-strings are parameters of the checker.
    - [raise ValueError(...)] is the [Raise] outcome. *)

From Stdlib Require Import List String Ascii ZArith Lia Bool Floats DecimalString.
Import ListNotations.
Open Scope string_scope.

(** ** Python values and helpers *)

(** A scalar as the store's JSON decodes it (informational columns only). *)
Inductive pyval : Type :=
| PyStr (s : string)
| PyInt (z : Z)
| PyFloat (x : float).

(** The exception raised by [check_compliance]. *)
Inductive exn : Type :=
| ValueError (msg : string).

Inductive outcome (A : Type) : Type :=
| Return (a : A)
| Raise (e : exn).
Arguments Return {A} a.
Arguments Raise {A} e.

(** Case mapping of the ASCII letters: [upper] is [str.upper] as the market
    test uses it, [lower] folds case for the store's matching.  Bytes above
    127 are left alone; no character outside ASCII has an upper case among
    the letters of "EU" and "CODEX", so the market test agrees with
    Python's. *)
Definition upper_ascii (c : ascii) : ascii :=
  let n := nat_of_ascii c in
  if (97 <=? n)%nat && (n <=? 122)%nat then ascii_of_nat (n - 32) else c.

Definition lower_ascii (c : ascii) : ascii :=
  let n := nat_of_ascii c in
  if (65 <=? n)%nat && (n <=? 90)%nat then ascii_of_nat (n + 32) else c.

Fixpoint map_string (f : ascii -> ascii) (s : string) : string :=
  match s with
  | EmptyString => EmptyString
  | String c s' => String (f c) (map_string f s')
  end.

Definition upper (s : string) : string := map_string upper_ascii s.
Definition lower (s : string) : string := map_string lower_ascii s.

(** [a > b] and [a <= b] on floats (IEEE 754: both are false on a NaN). *)
Definition float_gt (a b : float) : bool := PrimFloat.ltb b a.
Definition float_le (a b : float) : bool := PrimFloat.leb a b.

(** [x == v] for an optional string [x] and a string literal [v]. *)
Definition is_str (x : option string) (v : string) : bool :=
  match x with
  | Some s => String.eqb s v
  | None => false
  end.

(** [x in [a, b, ...]] for an optional string [x]. *)
Definition in_strings (x : option string) (l : list string) : bool :=
  match x with
  | Some s => existsb (String.eqb s) l
  | None => false
  end.

(** [str(n)] for an [int]. *)
Definition str_int (n : Z) : string := NilZero.string_of_int (Z.to_int n).

(** A [datetime]: microseconds since the start of the proleptic calendar,
    and whether it carries a UTC offset (is "aware"). *)
Record datetime : Type := {
  ticks : Z;
  aware : bool
}.

Definition microseconds_per_day : Z := 86400000000.

(** [(exp_date - datetime.now()).days]: [datetime.now()] is naive, so an
    aware [exp_date] raises [TypeError] ([None]); the [days] of a timedelta
    is the floor of the difference in days. *)
Definition days_between (exp_date : datetime) (now : Z) : option Z :=
  if aware exp_date then None
  else Some ((ticks exp_date - now) / microseconds_per_day)%Z.

(** ** The data model *)

Module MrlRow.
(** A row of [pesticide_mrl], by column. *)
Record t : Type := mk {
  crop : string;
  active_substance : string;
  eu_status : option string;
  eu_expiration : option string;
  mrl_eu : option float;
  mrl_eu_flag : option string;
  mrl_codex : option float;
  mrl_codex_flag : option string;
  pesticide_type : option string;
  dose : option pyval;
  max_applications : option pyval;
  interval_days : option pyval;
  preharvest_eu : option pyval;
  preharvest_codex : option pyval;
  who_class : option pyval;
  resistance_group : option pyval
}.
End MrlRow.

(** The dict built by [_extract_gap]. *)
Record Gap : Type := {
  dose : option pyval;
  max_applications : option pyval;
  interval_days : option pyval;
  preharvest_interval_eu : option pyval;
  preharvest_interval_codex : option pyval;
  who_toxicity_class : option pyval;
  pesticide_type : option string;
  resistance_group : option pyval
}.

Record ComplianceResult : Type := {
  status : string;
  severity : string;
  message : string;
  crop : string;
  substance : string;
  target_market : string;
  mrl_limit : option float;
  mrl_flag : option string;
  residue_level : option float;
  eu_status : option string;
  gap_recommendations : option Gap;
  alternatives : option (list string);
  references : list string
}.

(** ** The record store *)

Module Store.

(** Modelled from the spec: the store's [ilike] operator on the [crop] and
    [active_substance] columns, which the source delegates to the remote
    table: "case-insensitive exact-field match" (Record Lookup contract). *)
Definition ilike (column pattern : string) : bool :=
  String.eqb (lower column) (lower pattern).

Fixpoint is_infix (p s : string) : bool :=
  if String.prefix p s then true
  else match s with
       | EmptyString => false
       | String _ s' => is_infix p s'
       end.

(** Modelled from the spec: [ilike] with the pattern [%type%] on the
    nullable [pesticide_type] column: the column "contains the given type
    as a substring (case-insensitive)"; NULL matches nothing. *)
Definition ilike_contains (column : option string) (type : string) : bool :=
  match column with
  | Some v => is_infix (lower type) (lower v)
  | None => false
  end.

(** [.eq(column, value)]: exact equality; NULL matches nothing. *)
Definition eq (column : option string) (value : string) : bool :=
  is_str column value.

(** The two queries the checker issues. *)
Inductive Query : Type :=
| SelectRecord (crop substance : string)
| SelectAlternatives (crop pesticide_type : string).

Definition matches_record (crop substance : string) (r : MrlRow.t) : bool :=
  ilike (MrlRow.crop r) crop && ilike (MrlRow.active_substance r) substance.

Definition matches_alternative (crop type : string) (r : MrlRow.t) : bool :=
  ilike (MrlRow.crop r) crop
  && ilike_contains (MrlRow.pesticide_type r) type
  && eq (MrlRow.eu_status r) "Approuvée".

(** The rows a query returns, in the table's order. *)
Definition run (table : list MrlRow.t) (q : Query) : list MrlRow.t :=
  match q with
  | SelectRecord c s => filter (matches_record c s) table
  | SelectAlternatives c t => firstn 5 (filter (matches_alternative c t) table)
  end.

(** A computation that reads the table and logs the queries it executes. *)
Definition M (A : Type) : Type := list MrlRow.t -> A * list Query.

Definition ret {A} (a : A) : M A := fun _ => (a, []).

Definition bind {A B} (m : M A) (k : A -> M B) : M B :=
  fun table =>
    let (a, log1) := m table in
    let (b, log2) := k a table in
    (b, (log1 ++ log2)%list).

Definition execute (q : Query) : M (list MrlRow.t) :=
  fun table => (run table q, [q]).

End Store.

Notation "x <- m ;; k" := (Store.bind m (fun x => k))
  (at level 61, m at next level, right associativity).

(** ** The checker *)

Section Checker.

(** [datetime.fromisoformat]; [None] when it raises [ValueError]. *)
Variable fromisoformat : string -> option datetime.

(** How an f-string prints a [float] ([float.__repr__]). *)
Variable str_float : float -> string.

Definition str_opt_float (o : option float) : string :=
  match o with
  | Some x => str_float x
  | None => "None"
  end.

Definition str_opt (o : option string) : string :=
  match o with
  | Some s => s
  | None => "None"
  end.

Definition _extract_gap (row : MrlRow.t) : Gap :=
  {| dose := MrlRow.dose row;
     max_applications := MrlRow.max_applications row;
     interval_days := MrlRow.interval_days row;
     preharvest_interval_eu := MrlRow.preharvest_eu row;
     preharvest_interval_codex := MrlRow.preharvest_codex row;
     who_toxicity_class := MrlRow.who_class row;
     pesticide_type := MrlRow.pesticide_type row;
     resistance_group := MrlRow.resistance_group row |}.

Definition _find_alternatives (crop : string) (pesticide_type : option string)
  : Store.M (list string) :=
  match pesticide_type with
  | None => Store.ret []
  | Some type =>
      if String.eqb type "" then Store.ret []
      else
        data <- Store.execute (Store.SelectAlternatives crop type) ;;
        Store.ret (map MrlRow.active_substance data)
  end.

Definition _create_unknown_result (crop substance target_market : string)
    (residue_level : option float) : ComplianceResult :=
  {| status := "UNKNOWN";
     severity := "INFO";
     message := "ℹ️ No data found for " ++ substance ++ " on " ++ crop
                ++ " in COLEAD database.";
     crop := crop;
     substance := substance;
     target_market := target_market;
     mrl_limit := None;
     mrl_flag := None;
     residue_level := residue_level;
     eu_status := None;
     gap_recommendations := None;
     alternatives := None;
     references := ["COLEAD GAP Database"] |}.

(** *** EU rule chain *)

Definition eu_non_approved (eu_status : option string) : bool :=
  in_strings eu_status ["Non approuvée"; "Non reprise dans la liste"].

(** The body of the [try]: [None] when [fromisoformat] or the subtraction
    raises, which the bare [except: pass] swallows. *)
Definition days_until (eu_expiration : string) (now : Z) : option Z :=
  match fromisoformat eu_expiration with
  | Some exp_date => days_between exp_date now
  | None => None
  end.

(** The block under [if row['eu_expiration']]: [Some] when it returns,
    [None] when control falls out of it. *)
Definition eu_expiring (now : Z) (row : MrlRow.t) (residue_level : option float)
  : option ComplianceResult :=
  match MrlRow.eu_expiration row with
  | None => None
  | Some eu_expiration =>
      if String.eqb eu_expiration "" then None
      else
        match days_until eu_expiration now with
        | None => None
        | Some days =>
            if (days <? 180)%Z then
              Some {| status := "WARNING";
                      severity := "MAJOR";
                      message := "⚠️ " ++ MrlRow.active_substance row
                                 ++ " EU approval expires in " ++ str_int days
                                 ++ " days (" ++ eu_expiration
                                 ++ "). Monitor for renewal.";
                      crop := MrlRow.crop row;
                      substance := MrlRow.active_substance row;
                      target_market := "EU";
                      mrl_limit := MrlRow.mrl_eu row;
                      mrl_flag := MrlRow.mrl_eu_flag row;
                      residue_level := residue_level;
                      eu_status := MrlRow.eu_status row;
                      gap_recommendations := Some (_extract_gap row);
                      alternatives := None;
                      references := ["COLEAD GAP Database"] |}
            else None
        end
  end.

(** The block under [if residue_level is not None and mrl_eu is not None]. *)
Definition eu_residue (row : MrlRow.t) (residue_level : option float)
  : option ComplianceResult :=
  match residue_level, MrlRow.mrl_eu row with
  | Some residue, Some mrl_eu =>
      if float_gt residue mrl_eu then
        Some {| status := "NON_COMPLIANT";
                severity := "MAJOR";
                message := "❌ Residue level " ++ str_float residue
                           ++ " mg/kg exceeds EU MRL of " ++ str_float mrl_eu
                           ++ " mg/kg.";
                crop := MrlRow.crop row;
                substance := MrlRow.active_substance row;
                target_market := "EU";
                mrl_limit := MrlRow.mrl_eu row;
                mrl_flag := MrlRow.mrl_eu_flag row;
                residue_level := residue_level;
                eu_status := MrlRow.eu_status row;
                gap_recommendations := Some (_extract_gap row);
                alternatives := None;
                references := ["COLEAD GAP Database"; "EU Reg 396/2005"] |}
      else
        let flag_note :=
          if is_str (MrlRow.mrl_eu_flag row) "LOQ" then " (at LOQ)" else "" in
        Some {| status := "COMPLIANT";
                severity := "INFO";
                message := "✅ Compliant with EU standards. Residue "
                           ++ str_float residue ++ " mg/kg ≤ MRL "
                           ++ str_float mrl_eu ++ " mg/kg" ++ flag_note ++ ".";
                crop := MrlRow.crop row;
                substance := MrlRow.active_substance row;
                target_market := "EU";
                mrl_limit := MrlRow.mrl_eu row;
                mrl_flag := MrlRow.mrl_eu_flag row;
                residue_level := residue_level;
                eu_status := MrlRow.eu_status row;
                gap_recommendations := Some (_extract_gap row);
                alternatives := None;
                references := ["COLEAD GAP Database"] |}
  | _, _ => None
  end.

(** The final [return] of [_check_eu_compliance]. *)
Definition eu_info (row : MrlRow.t) : ComplianceResult :=
  {| status := "INFO";
     severity := "INFO";
     message := "ℹ️ EU MRL for " ++ MrlRow.active_substance row ++ " on "
                ++ MrlRow.crop row ++ ": " ++ str_opt_float (MrlRow.mrl_eu row)
                ++ " mg/kg. Status: " ++ str_opt (MrlRow.eu_status row);
     crop := MrlRow.crop row;
     substance := MrlRow.active_substance row;
     target_market := "EU";
     mrl_limit := MrlRow.mrl_eu row;
     mrl_flag := MrlRow.mrl_eu_flag row;
     residue_level := None;
     eu_status := MrlRow.eu_status row;
     gap_recommendations := Some (_extract_gap row);
     alternatives := None;
     references := ["COLEAD GAP Database"] |}.

(** Rules 3 and 4 of the EU chain: what is left once the non-approval and
    expiry rules have not returned. *)
Definition eu_residue_or_info (row : MrlRow.t) (residue_level : option float)
  : ComplianceResult :=
  match eu_residue row residue_level with
  | Some r => r
  | None => eu_info row
  end.

Definition eu_critical (row : MrlRow.t) (residue_level : option float)
    (alternatives : list string) : ComplianceResult :=
  {| status := "NON_COMPLIANT";
     severity := "CRITICAL";
     message := "❌ " ++ MrlRow.active_substance row
                ++ " is NOT APPROVED in EU for " ++ MrlRow.crop row
                ++ ". Cannot export to EU market.";
     crop := MrlRow.crop row;
     substance := MrlRow.active_substance row;
     target_market := "EU";
     mrl_limit := MrlRow.mrl_eu row;
     mrl_flag := MrlRow.mrl_eu_flag row;
     residue_level := residue_level;
     eu_status := MrlRow.eu_status row;
     gap_recommendations := None;
     alternatives := Some alternatives;
     references := ["COLEAD GAP Database"; "EU Reg 396/2005"] |}.

Definition _check_eu_compliance (now : Z) (row : MrlRow.t)
    (residue_level : option float) : Store.M ComplianceResult :=
  if eu_non_approved (MrlRow.eu_status row) then
    alternatives <- _find_alternatives (MrlRow.crop row) (MrlRow.pesticide_type row) ;;
    Store.ret (eu_critical row residue_level alternatives)
  else
    match eu_expiring now row residue_level with
    | Some warning => Store.ret warning
    | None => Store.ret (eu_residue_or_info row residue_level)
    end.

(** *** Codex rule chain *)

Definition _check_codex_compliance (row : MrlRow.t) (residue_level : option float)
  : ComplianceResult :=
  match MrlRow.mrl_codex row with
  | None =>
      {| status := "UNKNOWN";
         severity := "INFO";
         message := "ℹ️ No Codex MRL established for "
                    ++ MrlRow.active_substance row ++ " on " ++ MrlRow.crop row ++ ".";
         crop := MrlRow.crop row;
         substance := MrlRow.active_substance row;
         target_market := "Codex";
         mrl_limit := None;
         mrl_flag := None;
         residue_level := residue_level;
         eu_status := MrlRow.eu_status row;
         gap_recommendations := Some (_extract_gap row);
         alternatives := None;
         references := ["COLEAD GAP Database"; "Codex Alimentarius"] |}
  | Some mrl_codex =>
      match residue_level with
      | Some residue =>
          if float_gt residue mrl_codex then
            {| status := "NON_COMPLIANT";
               severity := "MAJOR";
               message := "❌ Residue level " ++ str_float residue
                          ++ " mg/kg exceeds Codex MRL of "
                          ++ str_float mrl_codex ++ " mg/kg.";
               crop := MrlRow.crop row;
               substance := MrlRow.active_substance row;
               target_market := "Codex";
               mrl_limit := Some mrl_codex;
               mrl_flag := MrlRow.mrl_codex_flag row;
               residue_level := residue_level;
               eu_status := MrlRow.eu_status row;
               gap_recommendations := Some (_extract_gap row);
               alternatives := None;
               references := ["COLEAD GAP Database"; "Codex Alimentarius"] |}
          else
            {| status := "COMPLIANT";
               severity := "INFO";
               message := "✅ Compliant with Codex standards. Residue "
                          ++ str_float residue ++ " mg/kg ≤ MRL "
                          ++ str_float mrl_codex ++ " mg/kg.";
               crop := MrlRow.crop row;
               substance := MrlRow.active_substance row;
               target_market := "Codex";
               mrl_limit := Some mrl_codex;
               mrl_flag := MrlRow.mrl_codex_flag row;
               residue_level := residue_level;
               eu_status := MrlRow.eu_status row;
               gap_recommendations := Some (_extract_gap row);
               alternatives := None;
               references := ["COLEAD GAP Database"; "Codex Alimentarius"] |}
      | None =>
          {| status := "INFO";
             severity := "INFO";
             message := "ℹ️ Codex MRL for " ++ MrlRow.active_substance row
                        ++ " on " ++ MrlRow.crop row ++ ": "
                        ++ str_float mrl_codex ++ " mg/kg.";
             crop := MrlRow.crop row;
             substance := MrlRow.active_substance row;
             target_market := "Codex";
             mrl_limit := Some mrl_codex;
             mrl_flag := MrlRow.mrl_codex_flag row;
             residue_level := None;
             eu_status := MrlRow.eu_status row;
             gap_recommendations := Some (_extract_gap row);
             alternatives := None;
             references := ["COLEAD GAP Database"; "Codex Alimentarius"] |}
      end
  end.

(** *** Entry point *)

Definition check_compliance (now : Z) (crop substance target_market : string)
    (residue_level : option float) : Store.M (outcome ComplianceResult) :=
  data <- Store.execute (Store.SelectRecord crop substance) ;;
  match data with
  | [] =>
      Store.ret
        (Return (_create_unknown_result crop substance target_market residue_level))
  | row :: _ =>
      if String.eqb (upper target_market) "EU" then
        result <- _check_eu_compliance now row residue_level ;;
        Store.ret (Return result)
      else if String.eqb (upper target_market) "CODEX" then
        Store.ret (Return (_check_codex_compliance row residue_level))
      else
        Store.ret
          (Raise (ValueError ("Unknown target market: " ++ target_market
                              ++ ". Use 'EU' or 'Codex'.")))
  end.

End Checker.

(** ** Reading results *)

(** The first record for (crop, substance), or none: [response.data[0]]
    guarded by [if not response.data]. *)
Definition find_record (table : list MrlRow.t) (crop substance : string)
  : option MrlRow.t :=
  hd_error (Store.run table (Store.SelectRecord crop substance)).

(** A field of the result of a call that returned. *)
Definition returned {A B : Type} (field : A -> B) (o : outcome A) : option B :=
  match o with
  | Return a => Some (field a)
  | Raise _ => None
  end.

Definition verdict (r : ComplianceResult) : string * string :=
  (status r, severity r).

(** The (status, severity) pairs the checker can produce. *)
Definition verdicts : list (string * string) :=
  [ ("NON_COMPLIANT", "CRITICAL"); ("NON_COMPLIANT", "MAJOR");
    ("WARNING", "MAJOR"); ("COMPLIANT", "INFO"); ("INFO", "INFO");
    ("UNKNOWN", "INFO") ].

(** What every result satisfies. *)
Definition well_formed (r : ComplianceResult) : Prop :=
  In (verdict r) verdicts
  /\ severity r <> "MINOR"
  /\ (status r = "UNKNOWN" \/ status r = "COMPLIANT" \/ status r = "INFO" ->
      severity r = "INFO")
  /\ exists rest, references r = "COLEAD GAP Database" :: rest.

(** ** Fixtures

    A parser for calendar dates ([YYYY-MM-DD], which [fromisoformat] reads as
    a naive midnight), a float printer, and a small table, to run the checker
    on concrete inputs. *)

Module Sample.

Definition digit (c : ascii) : option Z :=
  let n := nat_of_ascii c in
  if (48 <=? n)%nat && (n <=? 57)%nat then Some (Z.of_nat (n - 48)) else None.

Fixpoint number (acc : Z) (l : list ascii) : option Z :=
  match l with
  | [] => Some acc
  | c :: l' =>
      match digit c with
      | Some d => number (10 * acc + d) l'
      | None => None
      end
  end.

Definition is_leap (y : Z) : bool :=
  ((y mod 4 =? 0) && (negb (y mod 100 =? 0) || (y mod 400 =? 0)))%Z.

Definition days_in_month (y m : Z) : Z :=
  if (m =? 2)%Z then (if is_leap y then 29 else 28)
  else if ((m =? 4) || (m =? 6) || (m =? 9) || (m =? 11))%Z then 30
  else 31.

Definition days_before_year (y : Z) : Z :=
  let p := (y - 1)%Z in (p * 365 + p / 4 - p / 100 + p / 400)%Z.

Definition days_before_month (y m : Z) : Z :=
  fold_left (fun acc k => (acc + days_in_month y k)%Z)
            (map Z.of_nat (seq 1 (Z.to_nat (m - 1)))) 0%Z.

(** The ordinal of a date: 0001-01-01 is day 1. *)
Definition toordinal (y m d : Z) : Z :=
  (days_before_year y + days_before_month y m + d)%Z.

Definition midnight (y m d : Z) : Z :=
  (toordinal y m d * microseconds_per_day)%Z.

Definition fromisoformat (s : string) : option datetime :=
  match list_ascii_of_string s with
  | [y1; y2; y3; y4; "-"%char; m1; m2; "-"%char; d1; d2] =>
      match number 0 [y1; y2; y3; y4], number 0 [m1; m2], number 0 [d1; d2] with
      | Some y, Some m, Some d =>
          if ((1 <=? y) && (1 <=? m) && (m <=? 12)
              && (1 <=? d) && (d <=? days_in_month y m))%Z
          then Some {| ticks := midnight y m d; aware := false |}
          else None
      | _, _, _ => None
      end
  | _ => None
  end.

Fixpoint drop_zeros (l : list ascii) : list ascii :=
  match l with
  | "0"%char :: l' => drop_zeros l'
  | _ => l
  end.

(** [digits] as the [places] decimals after the point, without the
    trailing zeros. *)
Definition decimals (digits : Z) (places : nat) : string :=
  let s := list_ascii_of_string (str_int digits) in
  let padded := (repeat "0"%char (places - List.length s) ++ s)%list in
  match rev (drop_zeros (rev padded)) with
  | [] => "0"
  | l => string_of_list_ascii l
  end.

(** The exact decimal expansion of a float; it is what Python prints for
    the values used below (small multiples of a power of two). *)
Definition str_float (x : float) : string :=
  match Prim2SF x with
  | S754_zero s => if s then "-0.0" else "0.0"
  | S754_infinity s => if s then "-inf" else "inf"
  | S754_nan => "nan"
  | S754_finite s m e =>
      let sign := if s then "-" else "" in
      if (0 <=? e)%Z then sign ++ str_int (Z.pos m * 2 ^ e) ++ ".0"
      else
        let k := (- e)%Z in
        let n := (Z.pos m * 5 ^ k)%Z in
        sign ++ str_int (n / 10 ^ k) ++ "."
             ++ decimals (n mod 10 ^ k) (Z.to_nat k)
  end.

Definition row (crop substance : string) (eu_status : option string)
    (eu_expiration : option string) (mrl_eu mrl_codex : option float)
    (pesticide_type : option string) : MrlRow.t :=
  MrlRow.mk crop substance eu_status eu_expiration mrl_eu None mrl_codex None
         pesticide_type (Some (PyStr "0.5 l/ha")) (Some (PyInt 2)) None None
         None None None.

Definition chlorpyrifos : MrlRow.t :=
  row "Mango" "Chlorpyrifos" (Some "Non approuvée") None
      (Some 0.015625%float) (Some 0.5%float) (Some "Insecticide").

Definition azoxystrobin : MrlRow.t :=
  row "Mango" "Azoxystrobin" (Some "Approuvée") None
      (Some 5%float) (Some 0.75%float) (Some "Fongicide").

Definition spinosad : MrlRow.t :=
  row "Mango" "Spinosad" (Some "Approuvée") (Some "2026-12-15")
      (Some 0.25%float) None (Some "Insecticide / Acaricide").

Definition dimethoate : MrlRow.t :=
  row "Mango" "Dimethoate" (Some "Not approved") None
      (Some 1%float) (Some 2%float) (Some "Insecticide").

Definition lambda_cyhalothrin : MrlRow.t :=
  row "Mango" "Lambda-cyhalothrin" (Some "Approuvée") (Some "mid 2027")
      (Some 0.5%float) (Some 0.5%float) (Some "INSECTICIDE").

Definition abamectin : MrlRow.t :=
  row "Tomato" "Abamectin" (Some "Approuvée") (Some "2031-01-01")
      (Some 0.125%float) None (Some "insecticide").

Definition table : list MrlRow.t :=
  [chlorpyrifos; azoxystrobin; spinosad; dimethoate; lambda_cyhalothrin;
   abamectin].

(** 2026-11-04, 09:30 local time. *)
Definition now : Z := (midnight 2026 11 4 + 34200000000)%Z.

Definition check (table : list MrlRow.t) (now : Z) (crop substance market : string)
    (residue_level : option float) : outcome ComplianceResult * list Store.Query :=
  check_compliance fromisoformat str_float now crop substance market
                   residue_level table.

End Sample.

(** Records with an expiration date, and a parser that also reads a
    midnight with the UTC offset +00:00 ([YYYY-MM-DDT00:00:00+00:00], which
    [fromisoformat] reads as an aware datetime). *)
Module SampleExpiry.

Definition fromisoformat (s : string) : option datetime :=
  match Sample.fromisoformat (substring 0 10 s) with
  | Some date =>
      let rest := substring 10 (String.length s - 10) s in
      if String.eqb rest "" then Some date
      else if String.eqb rest "T00:00:00+00:00" then
        Some {| ticks := ticks date; aware := true |}
      else None
  | None => None
  end.

Definition mancozeb : MrlRow.t :=
  Sample.row "Mango" "Mancozeb" (Some "Approuvée")
             (Some "2026-12-14T00:00:00+00:00") (Some 2%float) (Some 2%float)
             (Some "Fongicide").

Definition carbendazim : MrlRow.t :=
  Sample.row "Mango" "Carbendazim" (Some "Non approuvée") (Some "2026-12-15")
             (Some 0.5%float) (Some 5%float) (Some "Fongicide").

Definition iprodione : MrlRow.t :=
  Sample.row "Mango" "Iprodione" (Some "Non approuvée") (Some "end of 2026")
             (Some 0.5%float) (Some 5%float) (Some "Fongicide").

Definition table : list MrlRow.t := [mancozeb; carbendazim; iprodione].

Definition check (crop substance market : string)
    (residue_level : option float) : outcome ComplianceResult * list Store.Query :=
  check_compliance fromisoformat Sample.str_float Sample.now crop substance
                   market residue_level table.

End SampleExpiry.

Ltac well_formed_leaf :=
  unfold well_formed, verdict, verdicts; cbn;
  split; [auto 7 | split; [discriminate | split; [| eexists; reflexivity]]];
  intros [H | [H | H]]; first [reflexivity | discriminate H].

(** ** Properties *)

(** *** Floats: strict and weak comparison exclude each other *)

Lemma SFleb_not_SFltb (a b : spec_float) :
  SFleb a b = true -> SFltb b a = false.
Proof.
  unfold SFleb, SFltb.
  destruct a as [sa | sa | | sa ma ea], b as [sb | sb | | sb mb eb]; simpl;
    try (destruct sa); try (destruct sb); simpl; try congruence;
    rewrite (Z.compare_antisym ea eb);
    destruct (ea ?= eb)%Z; simpl; try congruence;
    assert (H : CompOpp (PosDef.Pos.compare_cont Eq ma mb)
                = PosDef.Pos.compare_cont Eq mb ma)
      by exact (Pos.compare_cont_antisym ma mb Eq);
    rewrite <- H;
    destruct (PosDef.Pos.compare_cont Eq ma mb); simpl; congruence.
Qed.

Lemma SFeqb_SFleb (a b : spec_float) :
  SFeqb a b = true -> SFleb a b = true.
Proof.
  unfold SFeqb, SFleb. destruct (SFcompare a b) as [[| |] |]; congruence.
Qed.

Lemma float_eq_le (a b : float) :
  PrimFloat.eqb a b = true -> float_le a b = true.
Proof.
  unfold float_le. rewrite eqb_spec, leb_spec. apply SFeqb_SFleb.
Qed.

Lemma float_le_not_gt (a b : float) :
  float_le a b = true -> float_gt a b = false.
Proof.
  unfold float_le, float_gt. rewrite leb_spec, ltb_spec.
  apply SFleb_not_SFltb.
Qed.

(** *** Substrings *)

Lemma prefix_app (p s : string) :
  String.prefix p s = true <-> exists post, s = p ++ post.
Proof.
  revert s. induction p as [| c p IH]; intros s; simpl.
  - split; [intros _; exists s; reflexivity | intros _; destruct s; reflexivity].
  - destruct s as [| d s]; simpl.
    + split; [discriminate | intros [post H]; discriminate].
    + destruct (ascii_dec c d) as [-> | Hcd].
      * rewrite IH. split; intros [post H]; exists post; congruence.
      * split; [discriminate | intros [post H]; congruence].
Qed.

Lemma is_infix_unfold (p s : string) :
  Store.is_infix p s
  = String.prefix p s
    || match s with
       | EmptyString => false
       | String _ s' => Store.is_infix p s'
       end.
Proof.
  destruct s; cbn [Store.is_infix];
    destruct (String.prefix p _); reflexivity.
Qed.

Lemma is_infix_app (p s : string) :
  Store.is_infix p s = true <-> exists pre post, s = pre ++ p ++ post.
Proof.
  induction s as [| d s IH]; rewrite is_infix_unfold, orb_true_iff, prefix_app.
  - split.
    + intros [[post H] | H]; [exists "", post; exact H | discriminate].
    + intros [pre [post H]]. left.
      destruct pre; [exists post; exact H | discriminate].
  - rewrite IH. split.
    + intros [[post H] | [pre [post H]]].
      * exists "", post. exact H.
      * exists (String d pre), post. simpl. congruence.
    + intros [pre [post H]]. destruct pre as [| e pre]; simpl in H.
      * left. exists post. exact H.
      * right. exists pre, post. congruence.
Qed.

(** *** Alternatives lookup *)

Lemma in_firstn {A : Type} (n : nat) (l : list A) (x : A) :
  In x (firstn n l) -> In x l.
Proof.
  intros H. rewrite <- (firstn_skipn n l). apply in_or_app. left. exact H.
Qed.

Lemma matches_alternative_spec (crop type : string) (r : MrlRow.t) :
  Store.matches_alternative crop type r = true ->
  lower (MrlRow.crop r) = lower crop
  /\ MrlRow.eu_status r = Some "Approuvée"
  /\ exists v pre post,
       MrlRow.pesticide_type r = Some v /\ lower v = pre ++ lower type ++ post.
Proof.
  unfold Store.matches_alternative, Store.ilike, Store.ilike_contains,
    Store.eq, is_str.
  rewrite !andb_true_iff. intros [[Hcrop Htype] Hstatus].
  apply String.eqb_eq in Hcrop. split; [exact Hcrop |].
  destruct (MrlRow.eu_status r) as [st |]; [| discriminate].
  apply String.eqb_eq in Hstatus. subst st. split; [reflexivity |].
  destruct (MrlRow.pesticide_type r) as [v |]; [| discriminate].
  apply is_infix_app in Htype. destruct Htype as (pre & post & H).
  exists v, pre, post. split; [reflexivity | exact H].
Qed.

(** C9.  [_find_alternatives] returns the empty list, without querying the
    store, when the pesticide type is absent or empty.  Otherwise it returns
    at most 5 substance names, each the name of a record of the table for the
    same crop (compared without case), whose EU status is the approved one
    ("Approuvée") and whose pesticide type contains the given type as a
    substring, compared without case. *)
Theorem find_alternatives_spec (table : list MrlRow.t) (crop : string)
    (pesticide_type : option string) :
  (pesticide_type = None \/ pesticide_type = Some "" ->
   _find_alternatives crop pesticide_type table = ([], []))
  /\ (forall type,
        pesticide_type = Some type ->
        type <> "" ->
        (List.length (fst (_find_alternatives crop pesticide_type table)) <= 5)%nat
        /\ forall name,
             In name (fst (_find_alternatives crop pesticide_type table)) ->
             exists r,
               In r table
               /\ MrlRow.active_substance r = name
               /\ lower (MrlRow.crop r) = lower crop
               /\ MrlRow.eu_status r = Some "Approuvée"
               /\ exists v pre post,
                    MrlRow.pesticide_type r = Some v
                    /\ lower v = pre ++ lower type ++ post).
Proof.
  split.
  - intros [-> | ->]; reflexivity.
  - intros type -> Hpresent. apply String.eqb_neq in Hpresent.
    unfold _find_alternatives. rewrite Hpresent.
    unfold Store.bind, Store.execute, Store.ret, Store.run. cbn [fst].
    split.
    + rewrite length_map. apply firstn_le_length.
    + intros name Hin. apply in_map_iff in Hin. destruct Hin as (r & Hname & Hr).
      apply in_firstn, filter_In in Hr. destruct Hr as [Hr Hmatch].
      exists r. split; [exact Hr | split; [exact Hname |]].
      apply matches_alternative_spec. exact Hmatch.
Qed.

Section Properties.

Variable fromisoformat : string -> option datetime.
Variable str_float : float -> string.

Local Abbreviation check := (check_compliance fromisoformat str_float).
Local Abbreviation check_eu := (_check_eu_compliance fromisoformat str_float).
Local Abbreviation check_codex := (_check_codex_compliance str_float).

(** *** The dispatch of [check_compliance] *)

Lemma check_compliance_absent table now crop substance market residue :
  find_record table crop substance = None ->
  check now crop substance market residue table
  = (Return (_create_unknown_result crop substance market residue),
     [Store.SelectRecord crop substance]).
Proof.
  unfold find_record, check_compliance, Store.bind, Store.execute.
  destruct (Store.run table _); [reflexivity | discriminate].
Qed.

Lemma check_compliance_eu table now crop substance market residue row :
  find_record table crop substance = Some row ->
  upper market = "EU" ->
  check now crop substance market residue table
  = (Return (fst (check_eu now row residue table)),
     Store.SelectRecord crop substance :: snd (check_eu now row residue table)).
Proof.
  unfold find_record, check_compliance, Store.bind, Store.execute.
  intros Hrow Hmarket.
  destruct (Store.run table _) as [| row' rest]; [discriminate |].
  injection Hrow as ->. rewrite Hmarket. cbn [String.eqb Ascii.eqb Bool.eqb].
  destruct (check_eu now row residue table) as [r log].
  simpl. rewrite app_nil_r. reflexivity.
Qed.

Lemma check_compliance_codex table now crop substance market residue row :
  find_record table crop substance = Some row ->
  upper market = "CODEX" ->
  check now crop substance market residue table
  = (Return (check_codex row residue), [Store.SelectRecord crop substance]).
Proof.
  unfold find_record, check_compliance, Store.bind, Store.execute.
  intros Hrow Hmarket.
  destruct (Store.run table _) as [| row' rest]; [discriminate |].
  injection Hrow as ->. rewrite Hmarket. reflexivity.
Qed.

Lemma check_compliance_other table now crop substance market residue row :
  find_record table crop substance = Some row ->
  upper market <> "EU" ->
  upper market <> "CODEX" ->
  check now crop substance market residue table
  = (Raise (ValueError ("Unknown target market: " ++ market
                        ++ ". Use 'EU' or 'Codex'.")),
     [Store.SelectRecord crop substance]).
Proof.
  unfold find_record, check_compliance, Store.bind, Store.execute.
  intros Hrow Heu Hcodex.
  destruct (Store.run table _) as [| row' rest]; [discriminate |].
  apply String.eqb_neq in Heu, Hcodex. rewrite Heu, Hcodex. reflexivity.
Qed.

Lemma eu_non_approved_iff (eu_status : option string) :
  eu_non_approved eu_status = true
  <-> eu_status = Some "Non approuvée"
      \/ eu_status = Some "Non reprise dans la liste".
Proof.
  unfold eu_non_approved, in_strings. destruct eu_status as [s |].
  - cbn [existsb]. rewrite !orb_true_iff, !String.eqb_eq. split.
    + intros [-> | [-> | H]]; [left | right | discriminate]; reflexivity.
    + intros [H | H]; injection H as ->; auto.
  - split; [discriminate | intros [H | H]; discriminate].
Qed.

(** *** The EU branch *)

(** C1 (amended).  For every record whose [eu_status] is one of the labels
    the store holds for a substance that is not approved, "Non approuvée"
    and "Non reprise dans la liste", a check for the EU market returns
    NON_COMPLIANT / CRITICAL whatever the residue level and the limits are;
    [alternatives] is the answer of the alternatives lookup (possibly
    empty), [gap_recommendations] is absent, and the references are the
    database and EU Reg 396/2005. *)
Theorem eu_non_approval_is_critical
    table now crop substance market residue row :
  find_record table crop substance = Some row ->
  upper market = "EU" ->
  MrlRow.eu_status row = Some "Non approuvée"
  \/ MrlRow.eu_status row = Some "Non reprise dans la liste" ->
  exists r,
    fst (check now crop substance market residue table) = Return r
    /\ status r = "NON_COMPLIANT"
    /\ severity r = "CRITICAL"
    /\ alternatives r
       = Some (fst (_find_alternatives (MrlRow.crop row) (MrlRow.pesticide_type row)
                                       table))
    /\ gap_recommendations r = None
    /\ references r = ["COLEAD GAP Database"; "EU Reg 396/2005"].
Proof.
  intros Hrow Hmarket Hstatus. apply eu_non_approved_iff in Hstatus.
  rewrite (check_compliance_eu _ _ _ _ _ _ _ Hrow Hmarket).
  unfold _check_eu_compliance, Store.bind. rewrite Hstatus.
  destruct (_find_alternatives _ _ table) as [names log].
  eexists. cbn [fst Store.ret]. repeat split.
Qed.

(** *** No record *)

(** C2 (amended).  When no record matches (crop, substance), the check
    returns UNKNOWN / INFO for any target market and any residue level:
    the limit, its flag, the EU status, the GAP data and the alternatives
    are absent, the references are the market-independent list with the
    database alone, and [residue_level] echoes the level that was supplied
    (it is absent only when none was supplied). *)
Theorem unknown_when_no_record table now crop substance market residue :
  find_record table crop substance = None ->
  fst (check now crop substance market residue table)
  = Return {| status := "UNKNOWN";
              severity := "INFO";
              message := "ℹ️ No data found for " ++ substance ++ " on " ++ crop
                         ++ " in COLEAD database.";
              crop := crop;
              substance := substance;
              target_market := market;
              mrl_limit := None;
              mrl_flag := None;
              residue_level := residue;
              eu_status := None;
              gap_recommendations := None;
              alternatives := None;
              references := ["COLEAD GAP Database"] |}.
Proof.
  intros Hrow. rewrite (check_compliance_absent _ _ _ _ _ _ Hrow). reflexivity.
Qed.

(** *** Unsupported markets *)

(** C5 (amended).  A target market that is neither "EU" nor "CODEX" once
    upper-cased makes the call raise [ValueError] when a record matches
    (crop, substance), for every residue level; when no record matches, the
    market is not looked at and the UNKNOWN result is returned. *)
Theorem unsupported_market_raises table now crop substance market residue :
  upper market <> "EU" ->
  upper market <> "CODEX" ->
  fst (check now crop substance market residue table)
  = match find_record table crop substance with
    | Some _ =>
        Raise (ValueError ("Unknown target market: " ++ market
                           ++ ". Use 'EU' or 'Codex'."))
    | None => Return (_create_unknown_result crop substance market residue)
    end.
Proof.
  intros Heu Hcodex.
  destruct (find_record table crop substance) as [row |] eqn:Hrow.
  - rewrite (check_compliance_other _ _ _ _ _ _ _ Hrow Heu Hcodex). reflexivity.
  - rewrite (check_compliance_absent _ _ _ _ _ _ Hrow). reflexivity.
Qed.

(** *** The Codex branch *)

(** C7.  For every record without a Codex limit, a check for the Codex
    market returns UNKNOWN / INFO whatever residue level is supplied, with
    the GAP data populated from the record (each of its eight entries is the
    record's column of that name), no limit and no flag, and references to
    the database and to Codex Alimentarius. *)
Theorem codex_without_limit_is_unknown
    table now crop substance market residue row :
  find_record table crop substance = Some row ->
  upper market = "CODEX" ->
  MrlRow.mrl_codex row = None ->
  exists r,
    fst (check now crop substance market residue table) = Return r
    /\ status r = "UNKNOWN"
    /\ severity r = "INFO"
    /\ gap_recommendations r
       = Some {| dose := MrlRow.dose row;
                 max_applications := MrlRow.max_applications row;
                 interval_days := MrlRow.interval_days row;
                 preharvest_interval_eu := MrlRow.preharvest_eu row;
                 preharvest_interval_codex := MrlRow.preharvest_codex row;
                 who_toxicity_class := MrlRow.who_class row;
                 pesticide_type := MrlRow.pesticide_type row;
                 resistance_group := MrlRow.resistance_group row |}
    /\ mrl_limit r = None
    /\ mrl_flag r = None
    /\ references r = ["COLEAD GAP Database"; "Codex Alimentarius"].
Proof.
  intros Hrow Hmarket Hlimit.
  rewrite (check_compliance_codex _ _ _ _ _ _ _ Hrow Hmarket).
  unfold _check_codex_compliance. rewrite Hlimit.
  eexists. cbn [fst]. repeat split.
Qed.

(** C6 (amended).  For every record with a Codex limit, a check for the
    Codex market never gives the CRITICAL non-approval outcome, whatever
    the record's [eu_status] is: with a residue level the verdict is
    NON_COMPLIANT / MAJOR when the level exceeds the limit and
    COMPLIANT / INFO otherwise, and without a residue level it is
    INFO / INFO.  Every Codex result, with or without a limit, echoes the
    record's [eu_status]. *)
Theorem codex_ignores_eu_status
    table now crop substance market residue row :
  find_record table crop substance = Some row ->
  upper market = "CODEX" ->
  exists r,
    fst (check now crop substance market residue table) = Return r
    /\ eu_status r = MrlRow.eu_status row
    /\ severity r <> "CRITICAL"
    /\ forall limit,
         MrlRow.mrl_codex row = Some limit ->
         verdict r
         = match residue with
           | Some level =>
               if float_gt level limit then ("NON_COMPLIANT", "MAJOR")
               else ("COMPLIANT", "INFO")
           | None => ("INFO", "INFO")
           end.
Proof.
  intros Hrow Hmarket.
  rewrite (check_compliance_codex _ _ _ _ _ _ _ Hrow Hmarket).
  eexists. cbn [fst]. split; [reflexivity |].
  unfold _check_codex_compliance.
  destruct (MrlRow.mrl_codex row) as [mrl |];
    [| split; [reflexivity | split; discriminate]].
  destruct residue as [level |].
  - destruct (float_gt level mrl) eqn:Hgt;
      (split; [reflexivity | split; [discriminate |]]);
      intros limit [= <-]; rewrite Hgt; reflexivity.
  - split; [reflexivity | split; [discriminate |]].
    intros limit _. reflexivity.
Qed.

(** *** Residue comparison *)

(** C4.  With a residue level and a limit for the market (on the EU branch:
    after the non-approval and expiry rules did not return), a level
    strictly above the limit gives NON_COMPLIANT / MAJOR, and a level below
    or equal to the limit, exact equality included, gives
    COMPLIANT / INFO. *)
Theorem residue_comparison_is_strict
    table now crop substance market level limit row :
  find_record table crop substance = Some row ->
  (upper market = "EU"
   /\ eu_non_approved (MrlRow.eu_status row) = false
   /\ eu_expiring fromisoformat now row (Some level) = None
   /\ MrlRow.mrl_eu row = Some limit)
  \/ (upper market = "CODEX" /\ MrlRow.mrl_codex row = Some limit) ->
  exists r,
    fst (check now crop substance market (Some level) table) = Return r
    /\ (float_gt level limit = true -> verdict r = ("NON_COMPLIANT", "MAJOR"))
    /\ (float_le level limit = true -> verdict r = ("COMPLIANT", "INFO"))
    /\ (PrimFloat.eqb level limit = true -> verdict r = ("COMPLIANT", "INFO")).
Proof.
  intros Hrow [(Hmarket & Hstatus & Hexpiry & Hlimit) | (Hmarket & Hlimit)].
  - rewrite (check_compliance_eu _ _ _ _ _ _ _ Hrow Hmarket).
    unfold _check_eu_compliance. rewrite Hstatus, Hexpiry.
    unfold eu_residue_or_info, eu_residue. rewrite Hlimit.
    eexists. cbn [fst Store.ret]. split; [reflexivity |].
    destruct (float_gt level limit) eqn:Hgt.
    + split; [reflexivity | split; intros Hle];
        [| apply float_eq_le in Hle];
        apply float_le_not_gt in Hle; congruence.
    + split; [discriminate | split; reflexivity].
  - rewrite (check_compliance_codex _ _ _ _ _ _ _ Hrow Hmarket).
    unfold _check_codex_compliance. rewrite Hlimit.
    eexists. cbn [fst]. split; [reflexivity |].
    destruct (float_gt level limit) eqn:Hgt.
    + split; [reflexivity | split; intros Hle];
        [| apply float_eq_le in Hle];
        apply float_le_not_gt in Hle; congruence.
    + split; [discriminate | split; reflexivity].
Qed.

(** *** Expiring approvals *)

Lemma days_below_180 (exp_date : datetime) (now : Z) :
  aware exp_date = false ->
  (ticks exp_date - now < 180 * microseconds_per_day)%Z ->
  exists days,
    days_between exp_date now = Some days /\ (days <? 180)%Z = true.
Proof.
  intros Hnaive Hlt. unfold days_between. rewrite Hnaive.
  eexists. split; [reflexivity |]. apply Z.ltb_lt.
  apply Z.div_lt_upper_bound; unfold microseconds_per_day in *; lia.
Qed.

(** C8 (amended).  On the EU branch, for a record that the non-approval
    rule does not catch: when the expiration date is present but does not
    parse, the expiry rule is skipped without an error and the call returns
    the result of the residue comparison, or the informational fallback;
    when the date is present (not empty), parses to a datetime without UTC
    offset and lies strictly fewer than 180 days after the clock reading,
    the result is WARNING / MAJOR; when the date parses to a datetime with a
    UTC offset, its subtraction from the naive clock reading raises, the
    bare [except] swallows that too, and the call returns the result of the
    residue comparison, or the informational fallback. *)
Theorem eu_expiry_rule
    table now crop substance market residue row expiration :
  find_record table crop substance = Some row ->
  upper market = "EU" ->
  eu_non_approved (MrlRow.eu_status row) = false ->
  MrlRow.eu_expiration row = Some expiration ->
  (fromisoformat expiration = None ->
   fst (check now crop substance market residue table)
   = Return (eu_residue_or_info str_float row residue))
  /\ (forall exp_date,
        expiration <> "" ->
        fromisoformat expiration = Some exp_date ->
        aware exp_date = false ->
        (ticks exp_date - now < 180 * microseconds_per_day)%Z ->
        exists r,
          fst (check now crop substance market residue table) = Return r
          /\ verdict r = ("WARNING", "MAJOR"))
  /\ (forall exp_date,
        fromisoformat expiration = Some exp_date ->
        aware exp_date = true ->
        fst (check now crop substance market residue table)
        = Return (eu_residue_or_info str_float row residue)).
Proof.
  intros Hrow Hmarket Hstatus Hexp.
  rewrite (check_compliance_eu _ _ _ _ _ _ _ Hrow Hmarket).
  unfold _check_eu_compliance, eu_expiring, days_until.
  rewrite Hstatus, Hexp.
  split; [| split].
  - intros ->. destruct (String.eqb expiration ""); reflexivity.
  - intros exp_date Hpresent -> Hnaive Hlt.
    apply String.eqb_neq in Hpresent. rewrite Hpresent.
    destruct (days_below_180 exp_date now Hnaive Hlt) as (days & -> & ->).
    eexists. split; reflexivity.
  - intros exp_date -> Haware. unfold days_between. rewrite Haware.
    destruct (String.eqb expiration ""); reflexivity.
Qed.

(** *** What a result depends on *)




(** *** The verdicts *)

Lemma well_formed_unknown crop substance market residue :
  well_formed (_create_unknown_result crop substance market residue).
Proof. well_formed_leaf. Qed.

Lemma well_formed_codex row residue :
  well_formed (check_codex row residue).
Proof.
  unfold _check_codex_compliance.
  destruct (MrlRow.mrl_codex row) as [mrl |]; [| well_formed_leaf].
  destruct residue as [level |]; [| well_formed_leaf].
  destruct (float_gt level mrl); well_formed_leaf.
Qed.

Lemma well_formed_eu_residue_or_info row residue :
  well_formed (eu_residue_or_info str_float row residue).
Proof.
  unfold eu_residue_or_info, eu_residue.
  destruct residue as [level |]; [| well_formed_leaf].
  destruct (MrlRow.mrl_eu row) as [mrl |]; [| well_formed_leaf].
  destruct (float_gt level mrl); well_formed_leaf.
Qed.

Lemma well_formed_eu_expiring now row residue warning :
  eu_expiring fromisoformat now row residue = Some warning ->
  well_formed warning.
Proof.
  unfold eu_expiring.
  destruct (MrlRow.eu_expiration row) as [expiration |]; [| discriminate].
  destruct (String.eqb expiration ""); [discriminate |].
  destruct (days_until fromisoformat expiration now) as [days |];
    [| discriminate].
  destruct (days <? 180)%Z; [| discriminate].
  intros [= <-]. well_formed_leaf.
Qed.

Lemma well_formed_eu table now row residue :
  well_formed (fst (check_eu now row residue table)).
Proof.
  unfold _check_eu_compliance, Store.bind.
  destruct (eu_non_approved (MrlRow.eu_status row)).
  - destruct (_find_alternatives _ _ table) as [names log]. well_formed_leaf.
  - destruct (eu_expiring fromisoformat now row residue) as [warning |] eqn:E.
    + exact (well_formed_eu_expiring _ _ _ _ E).
    + apply well_formed_eu_residue_or_info.
Qed.

Lemma well_formed_check table now crop substance market residue r :
  fst (check now crop substance market residue table) = Return r ->
  well_formed r.
Proof.
  destruct (find_record table crop substance) as [row |] eqn:Hrow.
  - destruct (String.eqb (upper market) "EU") eqn:Heu;
      [apply String.eqb_eq in Heu | apply String.eqb_neq in Heu].
    + rewrite (check_compliance_eu _ _ _ _ _ _ _ Hrow Heu).
      intros [= <-]. apply well_formed_eu.
    + destruct (String.eqb (upper market) "CODEX") eqn:Hcodex;
        [apply String.eqb_eq in Hcodex | apply String.eqb_neq in Hcodex].
      * rewrite (check_compliance_codex _ _ _ _ _ _ _ Hrow Hcodex).
        intros [= <-]. apply well_formed_codex.
      * rewrite (check_compliance_other _ _ _ _ _ _ _ Hrow Heu Hcodex).
        discriminate.
  - rewrite (check_compliance_absent _ _ _ _ _ _ Hrow).
    intros [= <-]. apply well_formed_unknown.
Qed.

End Properties.

Lemma verdicts_attained (v : string * string) :
  In v verdicts ->
  exists crop substance market residue r,
    fst (Sample.check Sample.table Sample.now crop substance market residue)
    = Return r
    /\ verdict r = v.
Proof.
  unfold verdicts. cbn [In].
  intros [<- | [<- | [<- | [<- | [<- | [<- | []]]]]]].
  - exists "mango", "chlorpyrifos", "EU", None.
    eexists. split; [vm_compute; reflexivity | reflexivity].
  - exists "mango", "azoxystrobin", "EU", (Some 5.5%float).
    eexists. split; [vm_compute; reflexivity | reflexivity].
  - exists "mango", "spinosad", "EU", None.
    eexists. split; [vm_compute; reflexivity | reflexivity].
  - exists "mango", "azoxystrobin", "EU", (Some 5%float).
    eexists. split; [vm_compute; reflexivity | reflexivity].
  - exists "mango", "azoxystrobin", "EU", None.
    eexists. split; [vm_compute; reflexivity | reflexivity].
  - exists "tomato", "Unknownicide", "EU", None.
    eexists. split; [vm_compute; reflexivity | reflexivity].
Qed.

(** C10.  Every result that a call returns has its (status, severity) pair
    among NON_COMPLIANT / CRITICAL, NON_COMPLIANT / MAJOR, WARNING / MAJOR,
    COMPLIANT / INFO, INFO / INFO and UNKNOWN / INFO; the severity is never
    MINOR; the statuses UNKNOWN, COMPLIANT and INFO carry the severity INFO;
    and the references start with "COLEAD GAP Database".  Each of the six
    pairs is produced by some call. *)
Theorem verdicts_are_exact :
  (forall fromisoformat str_float table now crop substance market residue r,
      fst (check_compliance fromisoformat str_float now crop substance market
                            residue table) = Return r ->
      In (verdict r) verdicts
      /\ severity r <> "MINOR"
      /\ (status r = "UNKNOWN" \/ status r = "COMPLIANT" \/ status r = "INFO" ->
          severity r = "INFO")
      /\ exists rest, references r = "COLEAD GAP Database" :: rest)
  /\ (forall v,
        In v verdicts ->
        exists table now crop substance market residue r,
          fst (check_compliance Sample.fromisoformat Sample.str_float now crop
                                substance market residue table) = Return r
          /\ verdict r = v).
Proof.
  split.
  - intros fromisoformat str_float table now crop substance market residue r H.
    exact (well_formed_check fromisoformat str_float _ _ _ _ _ _ _ H).
  - intros v Hv. exists Sample.table, Sample.now.
    exact (verdicts_attained v Hv).
Qed.

(** ** The checker on the fixtures *)

(** C1: the theorem at Chlorpyrifos on mango, stored as "Non approuvée". *)
Lemma eu_non_approval_is_critical_witness :
  exists r,
    fst (Sample.check Sample.table Sample.now "mango" "chlorpyrifos" "eu"
                      (Some 0.5%float)) = Return r
    /\ status r = "NON_COMPLIANT"
    /\ severity r = "CRITICAL"
    /\ alternatives r = Some ["Spinosad"; "Lambda-cyhalothrin"]
    /\ gap_recommendations r = None
    /\ references r = ["COLEAD GAP Database"; "EU Reg 396/2005"].
Proof.
  apply (eu_non_approval_is_critical Sample.fromisoformat Sample.str_float
           Sample.table Sample.now "mango" "chlorpyrifos" "eu"
           (Some 0.5%float) Sample.chlorpyrifos).
  - reflexivity.
  - reflexivity.
  - left. reflexivity.
Defined.

(** C1 as stated fails: a record stored with the status "Not approved" is not
    in the set the code tests, and a residue below its EU limit is reported
    COMPLIANT / INFO. *)
Lemma english_label_is_not_critical :
  find_record Sample.table "mango" "dimethoate" = Some Sample.dimethoate
  /\ MrlRow.eu_status Sample.dimethoate = Some "Not approved"
  /\ returned verdict
       (fst (Sample.check Sample.table Sample.now "mango" "dimethoate" "EU"
                          (Some 0.5%float)))
     = Some ("COMPLIANT", "INFO").
Proof. repeat split. Qed.

(** C2: the theorem at a pair that the table does not hold. *)
Lemma unknown_when_no_record_witness :
  fst (Sample.check Sample.table Sample.now "tomato" "Unknownicide" "EU" None)
  = Return (_create_unknown_result "tomato" "Unknownicide" "EU" None).
Proof.
  apply (unknown_when_no_record Sample.fromisoformat Sample.str_float
           Sample.table Sample.now "tomato" "Unknownicide" "EU" None).
  reflexivity.
Defined.

(** C2 as stated fails: the residue level is an optional field of the result
    and it is present in the UNKNOWN result when a level was supplied. *)
Lemma unknown_result_echoes_residue :
  find_record Sample.table "tomato" "Unknownicide" = None
  /\ returned residue_level
       (fst (Sample.check Sample.table Sample.now "tomato" "Unknownicide" "EU"
                          (Some 0.5%float)))
     = Some (Some 0.5%float).
Proof. split; reflexivity. Qed.



(** C4: the theorem at Azoxystrobin on mango (EU limit 5, Codex limit 0.75):
    5.5 exceeds the EU limit, 5 equals it, 0.75 equals the Codex limit. *)
Lemma residue_comparison_is_strict_witness :
  (exists r,
      fst (Sample.check Sample.table Sample.now "mango" "azoxystrobin" "EU"
                        (Some 5.5%float)) = Return r
      /\ verdict r = ("NON_COMPLIANT", "MAJOR"))
  /\ (exists r,
         fst (Sample.check Sample.table Sample.now "mango" "azoxystrobin" "EU"
                           (Some 5%float)) = Return r
         /\ verdict r = ("COMPLIANT", "INFO"))
  /\ (exists r,
         fst (Sample.check Sample.table Sample.now "mango" "azoxystrobin"
                           "Codex" (Some 0.75%float)) = Return r
         /\ verdict r = ("COMPLIANT", "INFO")).
Proof.
  split; [| split].
  - destruct (residue_comparison_is_strict Sample.fromisoformat
                Sample.str_float Sample.table Sample.now "mango" "azoxystrobin"
                "EU" 5.5%float 5%float Sample.azoxystrobin)
      as (r & Hr & Hgt & _).
    + reflexivity.
    + left. repeat split.
    + exists r. split; [exact Hr | apply Hgt; reflexivity].
  - destruct (residue_comparison_is_strict Sample.fromisoformat
                Sample.str_float Sample.table Sample.now "mango" "azoxystrobin"
                "EU" 5%float 5%float Sample.azoxystrobin)
      as (r & Hr & _ & _ & Heq).
    + reflexivity.
    + left. repeat split.
    + exists r. split; [exact Hr | apply Heq; reflexivity].
  - destruct (residue_comparison_is_strict Sample.fromisoformat
                Sample.str_float Sample.table Sample.now "mango" "azoxystrobin"
                "Codex" 0.75%float 0.75%float Sample.azoxystrobin)
      as (r & Hr & _ & Hle & _).
    + reflexivity.
    + right. split; reflexivity.
    + exists r. split; [exact Hr | apply Hle; reflexivity].
Defined.

(** C5: the theorem at the market "FR" for a pair that the table holds. *)
Lemma unsupported_market_raises_witness :
  fst (Sample.check Sample.table Sample.now "mango" "azoxystrobin" "FR" None)
  = Raise (ValueError "Unknown target market: FR. Use 'EU' or 'Codex'.").
Proof.
  apply (unsupported_market_raises Sample.fromisoformat Sample.str_float
           Sample.table Sample.now "mango" "azoxystrobin" "FR" None).
  - vm_compute. discriminate.
  - vm_compute. discriminate.
Defined.

(** C5 as stated fails: for a pair without a record the market "FR" raises
    nothing; the call returns the UNKNOWN result with the market echoed. *)
Lemma unsupported_market_without_record_returns :
  find_record Sample.table "tomato" "Unknownicide" = None
  /\ returned verdict
       (fst (Sample.check Sample.table Sample.now "tomato" "Unknownicide" "FR"
                          None))
     = Some ("UNKNOWN", "INFO")
  /\ returned target_market
       (fst (Sample.check Sample.table Sample.now "tomato" "Unknownicide" "FR"
                          None))
     = Some "FR".
Proof. repeat split. Qed.

(** C6: the theorem at Dimethoate on mango (Codex limit 2), residue 2.5. *)
Lemma codex_ignores_eu_status_witness :
  exists r,
    fst (Sample.check Sample.table Sample.now "mango" "dimethoate" "codex"
                      (Some 2.5%float)) = Return r
    /\ eu_status r = Some "Not approved"
    /\ verdict r = ("NON_COMPLIANT", "MAJOR").
Proof.
  destruct (codex_ignores_eu_status Sample.fromisoformat Sample.str_float
              Sample.table Sample.now "mango" "dimethoate" "codex"
              (Some 2.5%float) Sample.dimethoate)
    as (r & Hr & Hstatus & _ & Hverdict).
  - reflexivity.
  - reflexivity.
  - exists r. split; [exact Hr | split; [exact Hstatus |]].
    exact (Hverdict 2%float eq_refl).
Defined.

(** C6 as stated fails: with a Codex limit but no residue level the verdict
    is INFO / INFO, neither COMPLIANT nor NON_COMPLIANT. *)
Lemma codex_without_residue_is_info :
  find_record Sample.table "mango" "dimethoate" = Some Sample.dimethoate
  /\ MrlRow.mrl_codex Sample.dimethoate = Some 2%float
  /\ returned verdict
       (fst (Sample.check Sample.table Sample.now "mango" "dimethoate" "Codex"
                          None))
     = Some ("INFO", "INFO").
Proof. repeat split. Qed.

(** C7: the theorem at Spinosad on mango, which has no Codex limit. *)
Lemma codex_without_limit_is_unknown_witness :
  exists r,
    fst (Sample.check Sample.table Sample.now "mango" "spinosad" "Codex"
                      (Some 0.5%float)) = Return r
    /\ status r = "UNKNOWN"
    /\ severity r = "INFO"
    /\ gap_recommendations r
       = Some {| dose := Some (PyStr "0.5 l/ha");
                 max_applications := Some (PyInt 2);
                 interval_days := None;
                 preharvest_interval_eu := None;
                 preharvest_interval_codex := None;
                 who_toxicity_class := None;
                 pesticide_type := Some "Insecticide / Acaricide";
                 resistance_group := None |}
    /\ mrl_limit r = None
    /\ mrl_flag r = None
    /\ references r = ["COLEAD GAP Database"; "Codex Alimentarius"].
Proof.
  apply (codex_without_limit_is_unknown Sample.fromisoformat Sample.str_float
           Sample.table Sample.now "mango" "spinosad" "Codex" (Some 0.5%float)
           Sample.spinosad); reflexivity.
Defined.

(** C8: the theorem at Lambda-cyhalothrin (expiration "mid 2027", which does
    not parse; residue 0.5 at the limit 0.5) and at Spinosad (expiration
    2026-12-15, 40 days after the clock reading). *)
Lemma eu_expiry_rule_witness :
  returned verdict
    (fst (Sample.check Sample.table Sample.now "mango" "lambda-cyhalothrin"
                       "EU" (Some 0.5%float)))
  = Some ("COMPLIANT", "INFO")
  /\ exists r,
       fst (Sample.check Sample.table Sample.now "mango" "spinosad" "EU" None)
       = Return r
       /\ verdict r = ("WARNING", "MAJOR").
Proof.
  split.
  - destruct (eu_expiry_rule Sample.fromisoformat Sample.str_float
                Sample.table Sample.now "mango" "lambda-cyhalothrin" "EU"
                (Some 0.5%float) Sample.lambda_cyhalothrin "mid 2027")
      as (Hskip & _ & _);
      [reflexivity | reflexivity | reflexivity | reflexivity |].
    unfold Sample.check. rewrite (Hskip eq_refl). reflexivity.
  - destruct (eu_expiry_rule Sample.fromisoformat Sample.str_float
                Sample.table Sample.now "mango" "spinosad" "EU" None
                Sample.spinosad "2026-12-15")
      as (_ & Hwarn & _);
      [reflexivity | reflexivity | reflexivity | reflexivity |].
    apply (Hwarn {| ticks := Sample.midnight 2026 12 15; aware := false |});
      [discriminate | reflexivity | reflexivity | reflexivity].
Defined.

(** C8 as stated fails.  Mancozeb's expiration date is present, parses (with
    the offset +00:00) and lies fewer than 40 days after the clock reading,
    yet the EU check gives no warning: INFO / INFO.  Carbendazim's date
    parses and lies fewer than 41 days after the clock reading, and
    Iprodione's date does not parse;
    both are stored as "Non approuvée", and the result is
    NON_COMPLIANT / CRITICAL, neither the warning nor the residue
    comparison (0.125 is below the limit 0.5). *)
Lemma expiry_rule_is_not_unconditional :
  MrlRow.eu_expiration SampleExpiry.mancozeb = Some "2026-12-14T00:00:00+00:00"
  /\ SampleExpiry.fromisoformat "2026-12-14T00:00:00+00:00"
     = Some {| ticks := Sample.midnight 2026 12 14; aware := true |}
  /\ (Sample.midnight 2026 12 14 - Sample.now < 180 * microseconds_per_day)%Z
  /\ returned verdict
       (fst (SampleExpiry.check "mango" "mancozeb" "EU" None))
     = Some ("INFO", "INFO")
  /\ MrlRow.eu_expiration SampleExpiry.carbendazim = Some "2026-12-15"
  /\ SampleExpiry.fromisoformat "2026-12-15"
     = Some {| ticks := Sample.midnight 2026 12 15; aware := false |}
  /\ (Sample.midnight 2026 12 15 - Sample.now < 180 * microseconds_per_day)%Z
  /\ returned verdict
       (fst (SampleExpiry.check "mango" "carbendazim" "EU" None))
     = Some ("NON_COMPLIANT", "CRITICAL")
  /\ MrlRow.eu_expiration SampleExpiry.iprodione = Some "end of 2026"
  /\ SampleExpiry.fromisoformat "end of 2026" = None
  /\ returned verdict
       (fst (SampleExpiry.check "mango" "iprodione" "EU" (Some 0.125%float)))
     = Some ("NON_COMPLIANT", "CRITICAL").
Proof. repeat split. Qed.

(** C9: the theorem at an absent type, and at "Insecticide" on mango. *)
Lemma find_alternatives_spec_witness :
  _find_alternatives "Mango" (Some "") Sample.table = ([], [])
  /\ (List.length
        (fst (_find_alternatives "Mango" (Some "Insecticide") Sample.table))
      <= 5)%nat.
Proof.
  split.
  - apply (proj1 (find_alternatives_spec Sample.table "Mango" (Some ""))).
    right. reflexivity.
  - apply (proj2 (find_alternatives_spec Sample.table "Mango"
                    (Some "Insecticide")) "Insecticide").
    + reflexivity.
    + discriminate.
Defined.

(** C10: the theorem at the result for Azoxystrobin on mango, residue 5.5. *)
Lemma verdicts_are_exact_witness :
  exists r,
    fst (Sample.check Sample.table Sample.now "mango" "azoxystrobin" "EU"
                      (Some 5.5%float)) = Return r
    /\ In (verdict r) verdicts
    /\ severity r <> "MINOR"
    /\ (status r = "UNKNOWN" \/ status r = "COMPLIANT" \/ status r = "INFO" ->
        severity r = "INFO")
    /\ exists rest, references r = "COLEAD GAP Database" :: rest.
Proof.
  eexists. split; [vm_compute; reflexivity |].
  apply (proj1 verdicts_are_exact Sample.fromisoformat Sample.str_float
           Sample.table Sample.now "mango" "azoxystrobin" "EU"
           (Some 5.5%float)).
  vm_compute. reflexivity.
Defined.
